(** * Registry tokens of the serverless registry (src/token.ts)

    A shallow embedding of [RegistryTokens]: token issuance, the
    authorization decision [verifyPayload], the exception boundary
    [verifyToken] and the facade [checkCredentials].

    Conventions.
    - JavaScript numbers that hold clock readings and token times are
      integers ([Z]); [Math.floor (x / 1000)] is [Z.div x 1000].
    - An optional field ([exp?], [account_id?], [aud?]) is an [option].
    - Code that may throw, reads the clock or calls the JWT library runs
      in the monad [M]: a world (clock, record of library calls) is
      threaded through and the outcome is a value or a thrown error.
    - [console.warn] only writes diagnostics and is left out.
    - The pure parts of scripts/issue-token.ts ([decodeTime] and the
      reading of the answers) are in [IssueToken]; its prompts, files and
      output are left out. *)

From Stdlib Require Import ZArith QArith List String Ascii Bool Lia.
Import ListNotations.
Local Open Scope string_scope.
Local Open Scope Z_scope.

(** ** String primitives of the platform *)

Module Str.

Fixpoint take_while (f : ascii -> bool) (s : string) : string :=
  match s with
  | EmptyString => EmptyString
  | String c rest => if f c then String c (take_while f rest) else EmptyString
  end.

Fixpoint drop_while (f : ascii -> bool) (s : string) : string :=
  match s with
  | EmptyString => EmptyString
  | String c rest => if f c then drop_while f rest else s
  end.

Fixpoint drop (n : nat) (s : string) : string :=
  match n, s with
  | O, _ => s
  | S _, EmptyString => EmptyString
  | S n', String _ rest => drop n' rest
  end.

(** [s.endsWith(suffix)] *)
Definition endsWith (s suffix : string) : bool :=
  let n := String.length s in
  let m := String.length suffix in
  (m <=? n)%nat && String.eqb (drop (n - m) s) suffix.

(** [s.split(sep)] for a separator of one character: the pieces between
    the separators, in order; the empty string splits into one empty
    piece. *)
Fixpoint split (sep : ascii) (s : string) : list string :=
  match s with
  | EmptyString => [EmptyString]
  | String c rest =>
      if Ascii.eqb c sep then EmptyString :: split sep rest
      else match split sep rest with
           | [] => [String c EmptyString]
           | piece :: pieces => String c piece :: pieces
           end
  end.

(** [xs.includes(x)] on an array of strings. *)
Definition includes (xs : list string) (x : string) : bool :=
  existsb (String.eqb x) xs.

End Str.

(** ** Data model *)

(** [RegistryTokenCapability] *)
Inductive RegistryTokenCapability := pull | push.

Definition capability_eqb (a b : RegistryTokenCapability) : bool :=
  match a, b with
  | pull, pull | push, push => true
  | _, _ => false
  end.

(** [caps.includes(c)] *)
Definition caps_include (caps : list RegistryTokenCapability)
    (c : RegistryTokenCapability) : bool :=
  existsb (capability_eqb c) caps.

(** Modelled from the spec: the type [RegistryAuthProtocolTokenPayload] is
    declared in auth.ts; the fields are those of the data model's
    TokenPayload table, with [aud] optional as [verifyPayload] tests it for
    presence. *)
Record RegistryAuthProtocolTokenPayload := mkPayload {
  username : string;
  account_id : option string;
  capabilities : list RegistryTokenCapability;
  iat : Z;
  exp : option Z;
  aud : option (list string)
}.

(** The return shape [{ verified, payload }] of the verification entry
    points. *)
Record VerifyResult := mkResult {
  verified : bool;
  payload : option RegistryAuthProtocolTokenPayload
}.

(** [{ verified: false, payload: null }] *)
Definition denied : VerifyResult := mkResult false None.

(** [{ verified: true, payload }] *)
Definition granted (p : RegistryAuthProtocolTokenPayload) : VerifyResult :=
  mkResult true (Some p).

(** What the code reads of a [Request]. *)
Record Request := mkRequest {
  method : string;
  url : string;
  headers : list (string * string)
}.

(** A JSON Web Key, kept as the JSON text it was parsed from. *)
Inductive JsonWebKey := JWK (json : string).

(** ** Effects: thrown errors, the clock, calls into the JWT library *)

Inductive Exn := Error (message : string).

Inductive Outcome (A : Type) :=
| Ok (a : A)
| Throw (e : Exn).
Arguments Ok {A} a.
Arguments Throw {A} e.

Inductive JwtCall :=
| SignCall (p : RegistryAuthProtocolTokenPayload) (key : JsonWebKey)
| VerifyCall (token : string) (key : JsonWebKey)
| DecodeCall (token : string).

(** The world a computation runs in: [now_ms n] is what the [n]-th call of
    [Date.now()] returns, [reads] counts the calls made so far, and
    [jwt_calls] records the calls into the JWT library, oldest first. *)
Record World := mkWorld {
  now_ms : nat -> Z;
  reads : nat;
  jwt_calls : list JwtCall
}.

Definition M (A : Type) : Type := World -> Outcome A * World.

Definition ret {A} (a : A) : M A := fun w => (Ok a, w).

Definition bind {A B} (c : M A) (k : A -> M B) : M B :=
  fun w =>
    match c w with
    | (Ok a, w') => k a w'
    | (Throw e, w') => (Throw e, w')
    end.

Definition throw {A} (e : Exn) : M A := fun w => (Throw e, w).

(** [try { body } catch (error) { handler }] *)
Definition try_catch {A} (body : M A) (handler : Exn -> M A) : M A :=
  fun w =>
    match body w with
    | (Ok a, w') => (Ok a, w')
    | (Throw e, w') => handler e w'
    end.

(** A pure call that may throw. *)
Definition lift {A} (o : Outcome A) : M A := fun w => (o, w).

Declare Scope monad_scope.
Delimit Scope monad_scope with monad.
Notation "x <- c ;; k" := (bind c (fun x => k))
  (at level 61, c at next level, right associativity) : monad_scope.
Local Open Scope monad_scope.

(** [Date.now()] *)
Definition Date_now : M Z :=
  fun w => (Ok (now_ms w (reads w)),
            mkWorld (now_ms w) (S (reads w)) (jwt_calls w)).

(** [Math.floor(Date.now() / 1000)] *)
Definition now_seconds : M Z :=
  t <- Date_now ;; ret (t / 1000).

Definition record_call (c : JwtCall) : M unit :=
  fun w => (Ok tt, mkWorld (now_ms w) (reads w) (jwt_calls w ++ [c])).

(** ** The URL parser of the platform *)

Module Url.

Record URL := mkURL {
  protocol : string;
  host : string;
  pathname : string;
  search : string;
  hash : string
}.

Definition is_alpha (c : ascii) : bool :=
  let n := nat_of_ascii c in
  ((97 <=? n) && (n <=? 122) || (65 <=? n) && (n <=? 90))%nat.

Definition is_scheme_char (c : ascii) : bool :=
  let n := nat_of_ascii c in
  is_alpha c ||
  ((48 <=? n) && (n <=? 57) || (n =? 43) || (n =? 45) || (n =? 46))%nat.

Definition starts_with_alpha (s : string) : bool :=
  match s with
  | EmptyString => false
  | String c _ => is_alpha c
  end.

Definition in_authority (c : ascii) : bool :=
  negb (Ascii.eqb c "/" || Ascii.eqb c "?" || Ascii.eqb c "#").

Definition in_path (c : ascii) : bool :=
  negb (Ascii.eqb c "?" || Ascii.eqb c "#").

Definition in_query (c : ascii) : bool := negb (Ascii.eqb c "#").

(** [new URL(href)] on the serialized absolute URL a [Request] carries:
    a scheme that starts with a letter, [://], a non-empty authority, then the path up to the first
    [?] or [#], the query up to the first [#], and the fragment. An empty
    path reads as [/]. Anything else is rejected ([TypeError]). A
    serialized URL is already normalized, so the path is taken as it
    stands. *)
Definition parse (href : string) : option URL :=
  let scheme := Str.take_while is_scheme_char href in
  let rest := Str.drop_while is_scheme_char href in
  if negb (starts_with_alpha scheme) then None
  else if negb (String.prefix "://" rest) then None
  else
    let rest1 := Str.drop 3 rest in
    let authority := Str.take_while in_authority rest1 in
    let rest2 := Str.drop_while in_authority rest1 in
    if String.eqb authority "" then None
    else
      let path := Str.take_while in_path rest2 in
      let rest3 := Str.drop_while in_path rest2 in
      Some (mkURL (scheme ++ ":") authority
              (if String.eqb path "" then "/" else path)
              (Str.take_while in_query rest3)
              (Str.drop_while in_query rest3)).

End Url.

Definition new_URL (href : string) : M Url.URL :=
  match Url.parse href with
  | Some u => ret u
  | None => throw (Error "Invalid URL")
  end.

(** ** The authorization decision (static members of [RegistryTokens]) *)

(** [checkIfV2OnlyPath]: [request.url.endsWith("/v2/")] *)
Definition checkIfV2OnlyPath (request : Request) : bool :=
  Str.endsWith (url request) "/v2/".

(** [payload.exp && now >= payload.exp]: an absent [exp] and the number 0
    are both falsy. *)
Definition has_expired (now : Z) (p : RegistryAuthProtocolTokenPayload) : bool :=
  match exp p with
  | Some e => negb (e =? 0) && (now >=? e)
  | None => false
  end.

(** How the [switch] on [request.method] ends: with a [return], or with a
    [break] that falls through to the namespace check. *)
Inductive SwitchExit :=
| Return (r : VerifyResult)
| Break.

(** The [switch (request.method)] of [verifyPayload]. *)
Definition method_switch (request : Request)
    (p : RegistryAuthProtocolTokenPayload) : SwitchExit :=
  let m := method request in
  if String.eqb m "HEAD" then
    if negb (caps_include (capabilities p) pull) &&
       negb (caps_include (capabilities p) push)
    then Return denied else Break
  else if String.eqb m "GET" then
    if checkIfV2OnlyPath request && (List.length (capabilities p) =? 0)%nat
    then Return denied
    else if checkIfV2OnlyPath request then Return (granted p)
    else if negb (caps_include (capabilities p) pull) then Return denied
    else Break
  else if String.eqb m "POST" || String.eqb m "PUT" ||
          String.eqb m "DELETE" || String.eqb m "PATCH" then
    if negb (caps_include (capabilities p) push) then Return denied else Break
  else Return denied.

(** [new URL(request.url).pathname.split("/")[2]]; [None] is
    [undefined]. *)
Definition namespace_of (u : Url.URL) : option string :=
  nth_error (Str.split "/" (Url.pathname u)) 2.

(** [payload.aud && !payload.aud.includes(namespace)]: an array, empty or
    not, is truthy; [undefined] is no element of an array of strings. *)
Definition aud_rejects (p : RegistryAuthProtocolTokenPayload)
    (namespace : option string) : bool :=
  match aud p with
  | Some allowed =>
      negb (match namespace with
            | Some ns => Str.includes allowed ns
            | None => false
            end)
  | None => false
  end.

Definition verifyPayload (request : Request)
    (p : RegistryAuthProtocolTokenPayload) : M VerifyResult :=
  now <- now_seconds ;;
  if has_expired now p then ret denied
  else
    match method_switch request p with
    | Return r => ret r
    | Break =>
        u <- new_URL (url request) ;;
        let namespace := namespace_of u in
        if aud_rejects p namespace then ret denied
        else ret (granted p)
    end.

(** ** The instance members of [RegistryTokens] *)

Record RegistryTokens := mkRegistryTokens {
  authmode : string;
  jwtPublicKey : JsonWebKey
}.

(** The constructor. *)
Definition RegistryTokens_new (key : JsonWebKey) : RegistryTokens :=
  mkRegistryTokens "RegistryTokens" key.

(** What [stripUsernamePasswordFromHeader] returns: a failure result (an
    object with a [verified] key) or the pair [[username, password]]. *)
Definition Credentials : Type := (VerifyResult + string * string)%type.

Section Collaborators.

(** The libraries the code calls, each given by what a call returns or
    throws: [decode] of @cfworker/base64url, [JSON.parse] read as a key,
    and [sign], [verify] (truthiness of its result) and [decode] (the
    [payload] member, read at the payload type) of
    @tsndr/cloudflare-worker-jwt with algorithm ES256. *)
Variable base64url_decode : string -> Outcome string.
Variable JSON_parse : string -> Outcome JsonWebKey.
Variable jwt_sign : RegistryAuthProtocolTokenPayload -> JsonWebKey -> Outcome string.
Variable jwt_verify : string -> JsonWebKey -> Outcome bool.
Variable jwt_decode : string -> Outcome RegistryAuthProtocolTokenPayload.

(** [stripUsernamePasswordFromHeader] of auth.ts. *)
Variable stripUsernamePasswordFromHeader : Request -> Credentials.

(** [importKeyFromBase64]: [JSON.parse(decode(key))] *)
Definition importKeyFromBase64 (key : string) : Outcome JsonWebKey :=
  match base64url_decode key with
  | Ok text => JSON_parse text
  | Throw e => Throw e
  end.

Definition newRegistryTokens (jwtPublicKey : string) : M RegistryTokens :=
  key <- lift (importKeyFromBase64 jwtPublicKey) ;;
  ret (RegistryTokens_new key).

(** Lines 62 to 71 of [createToken]: the payload, with [exp] set when
    [expirationMinutes] is not [undefined]. The clock is read once for
    [iat] and once more for [exp]. [expirationMinutes] ranges over the
    whole numbers: [NaN] and fractions of a minute, which a caller can
    pass, are outside this model. *)
Definition createToken_payload (caps : list RegistryTokenCapability)
    (namespaces : list string) (expirationMinutes : option Z)
    (accountID : option string) : M RegistryAuthProtocolTokenPayload :=
  issued <- now_seconds ;;
  let tokenPayload := mkPayload "v0" accountID caps issued None (Some namespaces) in
  match expirationMinutes with
  | Some minutes =>
      t <- now_seconds ;;
      ret (mkPayload (username tokenPayload) (account_id tokenPayload)
             (capabilities tokenPayload) (iat tokenPayload)
             (Some (t + 60 * minutes)) (aud tokenPayload))
  | None => ret tokenPayload
  end.

Definition createToken (caps : list RegistryTokenCapability)
    (privateKeyString : string) (namespaces : list string)
    (expirationMinutes : option Z) (accountID : option string) : M string :=
  privateKey <- lift (importKeyFromBase64 privateKeyString) ;;
  tokenPayload <- createToken_payload caps namespaces expirationMinutes accountID ;;
  _ <- record_call (SignCall tokenPayload privateKey) ;;
  lift (jwt_sign tokenPayload privateKey).

Definition verifyToken (this : RegistryTokens) (request : Request)
    (token : string) : M VerifyResult :=
  try_catch
    (_ <- record_call (VerifyCall token (jwtPublicKey this)) ;;
     ok <- lift (jwt_verify token (jwtPublicKey this)) ;;
     if negb ok then ret denied
     else
       _ <- record_call (DecodeCall token) ;;
       p <- lift (jwt_decode token) ;;
       verifyPayload request p)
    (fun error => ret denied).

Definition checkCredentials (this : RegistryTokens) (request : Request)
    : M VerifyResult :=
  match stripUsernamePasswordFromHeader request with
  | inl res => ret res
  | inr (_, password) => verifyToken this request password
  end.

End Collaborators.

(** ** Concrete requests, payloads and worlds *)

Module Sample.

(** A world whose clock stands at [seconds] seconds for every reading. *)
Definition at_second (seconds : Z) : World :=
  mkWorld (fun _ => 1000 * seconds) 0 [].

Definition get (href : string) : Request := mkRequest "GET" href [].

Definition token_payload (caps : list RegistryTokenCapability)
    (e : option Z) (a : option (list string)) : RegistryAuthProtocolTokenPayload :=
  mkPayload "v0" None caps 1700000000 e a.

End Sample.

Definition run {A} (c : M A) (w : World) : Outcome A := fst (c w).

(** ** Derived forms used in the statements *)

(** The world after one reading of the clock. *)
Definition tick (w : World) : World :=
  mkWorld (now_ms w) (S (reads w)) (jwt_calls w).

(** What [Math.floor(Date.now() / 1000)] gives in [w]. *)
Definition clock_seconds (w : World) : Z := now_ms w (reads w) / 1000.

(** The namespace check on its own (lines 169 to 173). *)
Definition namespace_check (request : Request)
    (p : RegistryAuthProtocolTokenPayload) : Outcome VerifyResult :=
  match Url.parse (url request) with
  | Some u => if aud_rejects p (namespace_of u) then Ok denied else Ok (granted p)
  | None => Throw (Error "Invalid URL")
  end.

(** The world after [calls] were recorded. *)
Definition recorded (w : World) (calls : list JwtCall) : World :=
  mkWorld (now_ms w) (reads w) (jwt_calls w ++ calls).

(** Written from the table of the specification: the requirement on the
    capability set by method, [ping] telling whether the request counts as
    the version ping. *)
Definition method_table (m : string) (ping : bool)
    (caps : list RegistryTokenCapability) : bool :=
  if String.eqb m "HEAD" then caps_include caps pull || caps_include caps push
  else if String.eqb m "GET" then
    if ping then negb (List.length caps =? 0)%nat else caps_include caps pull
  else if String.eqb m "POST" || String.eqb m "PUT" ||
          String.eqb m "DELETE" || String.eqb m "PATCH"
  then caps_include caps push
  else false.

(** The key pair matches on the claims [p]: what the library signs with
    the private key, it verifies under the public key and decodes to
    [p]. *)
Definition key_pair_matches
    (jwt_sign : RegistryAuthProtocolTokenPayload -> JsonWebKey -> Outcome string)
    (jwt_verify : string -> JsonWebKey -> Outcome bool)
    (jwt_decode : string -> Outcome RegistryAuthProtocolTokenPayload)
    (priv pub : JsonWebKey) (p : RegistryAuthProtocolTokenPayload) : Prop :=
  forall token, jwt_sign p priv = Ok token ->
    jwt_verify token pub = Ok true /\ jwt_decode token = Ok p.

(** Written from the specification (the authorization decision of its
    component design), not from the code: what a token authorizes. *)
Module Policy.

(** The request path is exactly [/v2/]. *)
Definition is_ping (request : Request) : bool :=
  match Url.parse (url request) with
  | Some u => String.eqb (Url.pathname u) "/v2/"
  | None => false
  end.

(** The namespace, the third piece of the path, is a member of [allowed]. *)
Definition namespace_listed (request : Request) (allowed : list string) : bool :=
  match Url.parse (url request) with
  | Some u =>
      match namespace_of u with
      | Some ns => Str.includes allowed ns
      | None => false
      end
  | None => false
  end.

(** The token is not expired at [now], its capabilities meet the method
    table, and, unless the request is the version ping, [aud] is empty or
    absent or lists the namespace. *)
Definition authorizes (now : Z) (request : Request)
    (p : RegistryAuthProtocolTokenPayload) : bool :=
  match exp p with
  | Some e => now <? e
  | None => true
  end &&
  method_table (method request) (is_ping request) (capabilities p) &&
  (String.eqb (method request) "GET" && is_ping request ||
   match aud p with
   | None | Some [] => true
   | Some allowed => namespace_listed request allowed
   end).

End Policy.

(** A stand-in for the libraries, enough to run the code on an example. *)
Module Stub.

Definition base64url_decode (s : string) : Outcome string := Ok s.

Definition JSON_parse (s : string) : Outcome JsonWebKey := Ok (JWK s).

Definition claims : RegistryAuthProtocolTokenPayload :=
  mkPayload "v0" (Some "acct-1") [pull; push] 1700000000
    (Some 1700001800) (Some ["teamA"]).

Definition jwt_sign (p : RegistryAuthProtocolTokenPayload) (k : JsonWebKey)
    : Outcome string :=
  match k with JWK json => Ok ("signed-with-" ++ json) end.

Definition jwt_verify (token : string) (k : JsonWebKey) : Outcome bool :=
  match k with JWK json => Ok (String.eqb token ("signed-with-" ++ json)) end.

Definition jwt_decode (token : string)
    : Outcome RegistryAuthProtocolTokenPayload := Ok claims.

Definition stripUsernamePasswordFromHeader (r : Request) : Credentials :=
  match headers r with
  | (_, value) :: _ => inr ("user", value)
  | [] => inl denied
  end.

Definition registry : RegistryTokens := RegistryTokens_new (JWK "p256").

Definition issue_world : World := Sample.at_second 1700000000.

Definition verify_world : World := Sample.at_second 1700000100.

Definition push_request : Request :=
  mkRequest "PUT" "https://registry.example/v2/teamA/blobs/uploads/1"
    [("Authorization", "signed-with-p256")].

Definition anonymous_request : Request :=
  mkRequest "PUT" "https://registry.example/v2/teamA/blobs/uploads/1" [].


End Stub.

(** The stand-in library for a token issued without namespaces:
    [jwt.decode] gives the claims of that token. *)
Module Unrestricted.

Definition claims : RegistryAuthProtocolTokenPayload :=
  mkPayload "v0" None [pull; push] 1700000000 None (Some []).

Definition jwt_decode (token : string)
    : Outcome RegistryAuthProtocolTokenPayload := Ok claims.

End Unrestricted.

(** ** Examples *)

Module Trace.

Import Sample.

Definition w : World := at_second 1700000100.

Definition path_of (request : Request) : option string :=
  option_map Url.pathname (Url.parse (url request)).

Definition namespace_in (request : Request) : option (option string) :=
  option_map namespace_of (Url.parse (url request)).

End Trace.

(** ** More of the platform: numbers, [parseInt], string edits *)

Module Js.

(** A character is a code unit below 256. White space ([\s], and what
    [parseInt] skips): tab, line feed, vertical tab, form feed, carriage
    return, space and the no-break space. *)
Definition is_whitespace (c : ascii) : bool :=
  let n := nat_of_ascii c in
  ((9 <=? n) && (n <=? 13) || (n =? 32) || (n =? 160))%nat.

(** A JavaScript number: [NaN] or an exact value. Rounding to a double
    and the sign of zero are not modelled, so a value stands for the
    number the code computes only where that number is exact in a double
    (for whole numbers: up to 2^53 in magnitude). *)
Inductive Number :=
| NaN
| Num (q : Q).

(** [x * k] and [x / k] for a whole constant [k]. *)
Definition times (x : Number) (k : Z) : Number :=
  match x with
  | NaN => NaN
  | Num q => Num (q * inject_Z k)
  end.

Definition over (x : Number) (k : Z) : Number :=
  match x with
  | NaN => NaN
  | Num q => Num (q / inject_Z k)
  end.

(** The value of a digit in the radix, if it is one. *)
Definition digit_of (radix : Z) (c : ascii) : option Z :=
  let n := Z.of_nat (nat_of_ascii c) in
  let v := if (48 <=? n) && (n <=? 57) then Some (n - 48)
           else if (97 <=? n) && (n <=? 122) then Some (n - 87)
           else if (65 <=? n) && (n <=? 90) then Some (n - 55)
           else None in
  match v with
  | Some d => if d <? radix then Some d else None
  | None => None
  end.

(** The value of the longest prefix of digits, [acc] being the value of
    the digits read so far ([None]: none yet). *)
Fixpoint digits_value (radix : Z) (s : string) (acc : option Z) : option Z :=
  match s with
  | EmptyString => acc
  | String c rest =>
      match digit_of radix c with
      | Some d =>
          digits_value radix rest
            (Some (match acc with Some a => a * radix + d | None => d end))
      | None => acc
      end
  end.

(** [parseInt(s)] without a radix: leading white space is skipped, a sign
    is read, [0x] or [0X] selects radix 16, and the longest prefix of
    digits gives the value; [NaN] when there is no digit. The value is
    exact: it is what the code returns where it is at most 2^53 in
    magnitude, and beyond that the code returns the nearest double. *)
Definition parseInt (s : string) : Number :=
  let trimmed := Str.drop_while is_whitespace s in
  let signed :=
    match trimmed with
    | String "-" rest => (-1, rest)
    | String "+" rest => (1, rest)
    | _ => (1, trimmed)
    end in
  let body := snd signed in
  let based :=
    if String.prefix "0x" body || String.prefix "0X" body
    then (16, Str.drop 2 body) else (10, body) in
  match digits_value (fst based) (snd based) None with
  | Some v => Num (inject_Z (fst signed * v))
  | None => NaN
  end.

(** [s.slice(0, -1)]: all but the last character. *)
Fixpoint slice_0_minus1 (s : string) : string :=
  match s with
  | EmptyString => EmptyString
  | String c EmptyString => EmptyString
  | String c rest => String c (slice_0_minus1 rest)
  end.

(** [s.replace(/\s/g, "")] *)
Fixpoint remove_whitespace (s : string) : string :=
  match s with
  | EmptyString => EmptyString
  | String c rest =>
      if is_whitespace c then remove_whitespace rest
      else String c (remove_whitespace rest)
  end.

(** Whether the character occurs in the string. *)
Fixpoint contains (c : ascii) (s : string) : bool :=
  match s with
  | EmptyString => false
  | String c' rest => Ascii.eqb c' c || contains c rest
  end.

(** Whether some character of the string satisfies the test. *)
Fixpoint any (f : ascii -> bool) (s : string) : bool :=
  match s with
  | EmptyString => false
  | String c rest => f c || any f rest
  end.

(** Decimal numerals and the numbers they stand for, read from the left. *)
Definition is_decimal (c : ascii) : bool :=
  let n := nat_of_ascii c in ((48 <=? n) && (n <=? 57))%nat.

Fixpoint all_decimal (s : string) : bool :=
  match s with
  | EmptyString => true
  | String c rest => is_decimal c && all_decimal rest
  end.

Fixpoint decimal_from (acc : Z) (s : string) : Z :=
  match s with
  | EmptyString => acc
  | String c rest =>
      decimal_from (acc * 10 + (Z.of_nat (nat_of_ascii c) - 48)) rest
  end.

Definition decimal_value (s : string) : Z := decimal_from 0 s.

End Js.

(** ** The issuing script (scripts/issue-token.ts) *)

Module IssueToken.

(** What a call of [decodeTime] comes to: [undefined], a number of
    minutes, or the end of the process with an exit code. *)
Inductive Decoded :=
| Undefined
| Minutes (n : Js.Number)
| Exit (code : Z).

Definition decodeTime (time : string) : Decoded :=
  if String.eqb time "" then Undefined
  else if Str.endsWith time "m" then
    Minutes (Js.parseInt (Js.slice_0_minus1 time))
  else if Str.endsWith time "h" then
    Minutes (Js.times (Js.parseInt (Js.slice_0_minus1 time)) 60)
  else if Str.endsWith time "d" then
    Minutes (Js.times (Js.times (Js.parseInt (Js.slice_0_minus1 time)) 60) 24)
  else if Str.endsWith time "s" then
    Minutes (Js.over (Js.parseInt (Js.slice_0_minus1 time)) 60)
  else Exit 2.

(** Lines 51 to 53: [readOnly] is the answer as typed, and a string is
    truthy when it is not empty. *)
Definition chosen_capabilities (readOnly : string) : list RegistryTokenCapability :=
  if negb (String.eqb readOnly "") then [pull] else [pull; push].

(** Line 54. *)
Definition chosen_namespaces (restrictedNamespaces : string) : list string :=
  if negb (String.eqb restrictedNamespaces "")
  then Str.split "," (Js.remove_whitespace restrictedNamespaces)
  else [].

(** Line 66: [namespaces.length ? namespaces[0] : "user"] *)
Definition chosen_username (namespaces : list string) : string :=
  match namespaces with
  | first :: _ => first
  | [] => "user"
  end.

(** The units [decodeTime] knows. *)
Definition units : list ascii := ["m"; "h"; "d"; "s"]%char.

End IssueToken.

(** The payload with another capability set. *)
Definition with_capabilities (p : RegistryAuthProtocolTokenPayload)
    (caps : list RegistryTokenCapability) : RegistryAuthProtocolTokenPayload :=
  mkPayload (username p) (account_id p) caps (iat p) (exp p) (aud p).

(** * Properties *)

(** ** Running [verifyPayload] *)

Lemma verifyPayload_run request p w :
  verifyPayload request p w =
  (if has_expired (clock_seconds w) p then Ok denied
   else match method_switch request p with
        | Return r => Ok r
        | Break => namespace_check request p
        end,
   tick w).
Proof.
  unfold verifyPayload, now_seconds, namespace_check, new_URL, clock_seconds, tick.
  cbv beta iota delta [bind ret throw Date_now].
  destruct (has_expired _ p); [reflexivity|].
  destruct (method_switch request p); [reflexivity|].
  destruct (Url.parse (url request)) as [u|]; [|reflexivity].
  cbv beta iota.
  destruct (aud_rejects p (namespace_of u)); reflexivity.
Qed.

(** The [switch] returns a denial or, on the bypass, the grant of the
    payload it was given. *)
Lemma method_switch_exits request p :
  method_switch request p = Break \/
  method_switch request p = Return denied \/
  method_switch request p = Return (granted p).
Proof.
  unfold method_switch.
  repeat match goal with
         | |- context [if ?b then _ else _] => destruct b
         end; auto.
Qed.

Lemma namespace_check_exits request p :
  (exists e, namespace_check request p = Throw e) \/
  namespace_check request p = Ok denied \/
  namespace_check request p = Ok (granted p).
Proof.
  unfold namespace_check.
  destruct (Url.parse (url request)) as [u|]; [|eauto].
  destruct (aud_rejects p (namespace_of u)); auto.
Qed.

(** [verifyPayload] throws, denies, or grants with the payload it was
    given. *)
Lemma verifyPayload_exits request p w :
  (exists e, run (verifyPayload request p) w = Throw e) \/
  run (verifyPayload request p) w = Ok denied \/
  run (verifyPayload request p) w = Ok (granted p).
Proof.
  unfold run. rewrite verifyPayload_run. cbn.
  destruct (has_expired _ p); [auto|].
  destruct (method_switch_exits request p) as [-> | [-> | ->]]; auto.
  apply namespace_check_exits.
Qed.

(** The record of library calls plays no part in the decision. *)
Lemma verifyPayload_ignores_calls request p w calls :
  run (verifyPayload request p) (mkWorld (now_ms w) (reads w) calls) =
  run (verifyPayload request p) w.
Proof. unfold run. rewrite !verifyPayload_run. reflexivity. Qed.

(** ** Expiry *)

Lemma has_expired_spec now p :
  has_expired now p = true <->
  exists e, exp p = Some e /\ e <> 0 /\ e <= now.
Proof.
  unfold has_expired. destruct (exp p) as [e|].
  - rewrite andb_true_iff, negb_true_iff, Z.eqb_neq, Z.geb_le. split.
    + intros [H1 H2]. exists e. auto.
    + intros (e' & [= <-] & H1 & H2). auto.
  - split; [discriminate|]. intros (e & H & _). discriminate.
Qed.

(** A token whose [exp] is present, not 0 and reached is denied. *)
Lemma expired_is_denied request p w e :
  exp p = Some e -> e <> 0 -> e <= clock_seconds w ->
  run (verifyPayload request p) w = Ok denied.
Proof.
  intros He Hz Hle. unfold run. rewrite verifyPayload_run. cbn.
  replace (has_expired (clock_seconds w) p) with true; [reflexivity|].
  symmetry. apply has_expired_spec. eauto.
Qed.

(** Before [exp], and without [exp], the decision is that of the method
    switch and the namespace check. *)
Lemma unexpired_is_decided_later request p w :
  (forall e, exp p = Some e -> clock_seconds w < e) ->
  run (verifyPayload request p) w =
  match method_switch request p with
  | Return r => Ok r
  | Break => namespace_check request p
  end.
Proof.
  intros H. unfold run. rewrite verifyPayload_run. cbn.
  replace (has_expired (clock_seconds w) p) with false; [reflexivity|].
  symmetry. apply not_true_is_false. rewrite has_expired_spec.
  intros (e & He & _ & Hle). specialize (H e He). lia.
Qed.

(** ** The method table, on the flag [checkIfV2OnlyPath] computes *)

Lemma method_switch_refines_table request p :
  method_switch request p <> Return denied <->
  method_table (method request) (checkIfV2OnlyPath request) (capabilities p) = true.
Proof.
  unfold method_switch, method_table.
  destruct (String.eqb (method request) "HEAD").
  { destruct (caps_include (capabilities p) pull),
             (caps_include (capabilities p) push); cbn;
      split; congruence. }
  destruct (String.eqb (method request) "GET").
  { destruct (checkIfV2OnlyPath request); cbn.
    - destruct (List.length (capabilities p) =? 0)%nat; cbn;
        split; try congruence. discriminate.
    - destruct (caps_include (capabilities p) pull); cbn; split; congruence. }
  destruct (_ || _); cbn.
  - destruct (caps_include (capabilities p) push); cbn; split; congruence.
  - split; congruence.
Qed.

(** The bypass is taken exactly by a GET whose URL ends in [/v2/], with a
    capability set that is not empty. *)
Lemma method_switch_bypass request p :
  method_switch request p = Return (granted p) <->
  method request = "GET" /\ checkIfV2OnlyPath request = true /\
  capabilities p <> [].
Proof.
  unfold method_switch.
  destruct (String.eqb_spec (method request) "HEAD") as [Hh|Hh].
  { rewrite Hh. destruct (_ && _); split; try discriminate;
      intros ([=] & _). }
  destruct (String.eqb_spec (method request) "GET") as [Hg|Hg].
  { destruct (checkIfV2OnlyPath request); cbn.
    - destruct (capabilities p); cbn; split; try discriminate; auto.
      + intros (_ & _ & H). congruence.
      + intros _. repeat split; auto. discriminate.
    - destruct (negb _); split; try discriminate; intros (_ & [=] & _). }
  destruct (_ || _); [destruct (negb _)|]; split; try discriminate;
    intros (H & _); contradiction.
Qed.

(** ** The namespace check *)

Lemma includes_In allowed ns :
  Str.includes allowed ns = true <-> In ns allowed.
Proof.
  unfold Str.includes. rewrite existsb_exists. split.
  - intros (x & Hin & Heq). apply String.eqb_eq in Heq. now subst.
  - intros Hin. exists ns. split; [assumption | apply String.eqb_refl].
Qed.

(** The check rejects exactly when [aud] is present and the namespace is
    missing or not listed. *)
Lemma aud_rejects_spec p namespace :
  aud_rejects p namespace = true <->
  exists allowed, aud p = Some allowed /\
                  forall ns, namespace = Some ns -> ~ In ns allowed.
Proof.
  unfold aud_rejects. destruct (aud p) as [allowed|].
  - rewrite negb_true_iff. destruct namespace as [ns|].
    + rewrite <- not_true_iff_false, includes_In. split.
      * intros H. exists allowed. split; [reflexivity|]. now intros ? [= <-].
      * intros (a & [= <-] & H). now apply H.
    + split; [|reflexivity]. intros _. exists allowed.
      split; [reflexivity | discriminate].
  - split; [discriminate|]. intros (a & H & _). discriminate.
Qed.

(** An absent [aud] restricts nothing. *)
Lemma absent_aud_is_unrestricted p namespace :
  aud p = None -> aud_rejects p namespace = false.
Proof. unfold aud_rejects. now intros ->. Qed.

(** A present but empty [aud] rejects every namespace. *)
Lemma empty_aud_rejects_all p namespace :
  aud p = Some [] -> aud_rejects p namespace = true.
Proof. unfold aud_rejects. intros ->. now destruct namespace. Qed.

(** A path of fewer than three pieces has no namespace, and any present
    [aud] then rejects. *)
Lemma short_path_no_namespace u :
  (List.length (Str.split "/" (Url.pathname u)) < 3)%nat ->
  namespace_of u = None.
Proof. intros H. unfold namespace_of. apply nth_error_None. lia. Qed.

Lemma short_path_rejected_by_aud p u allowed :
  (List.length (Str.split "/" (Url.pathname u)) < 3)%nat ->
  aud p = Some allowed ->
  aud_rejects p (namespace_of u) = true.
Proof.
  intros Hlen Haud. rewrite (short_path_no_namespace u Hlen).
  unfold aud_rejects. now rewrite Haud.
Qed.

(** Where the switch falls through, a request with a short path and a
    present [aud] is denied, and the index out of range raises nothing. *)
Lemma short_path_denied_after_break request p w u allowed :
  method_switch request p = Break ->
  Url.parse (url request) = Some u ->
  (List.length (Str.split "/" (Url.pathname u)) < 3)%nat ->
  aud p = Some allowed ->
  run (verifyPayload request p) w = Ok denied.
Proof.
  intros Hsw Hu Hlen Haud. unfold run. rewrite verifyPayload_run. cbn.
  destruct (has_expired _ p); [reflexivity|].
  rewrite Hsw. unfold namespace_check. rewrite Hu.
  now rewrite (short_path_rejected_by_aud p u allowed Hlen Haud).
Qed.

(** ** The decision as a whole *)

(** A present but empty [aud] denies every request that reaches the
    namespace check. *)
Lemma empty_aud_denied_after_break request p w u :
  method_switch request p = Break ->
  Url.parse (url request) = Some u ->
  aud p = Some [] ->
  run (verifyPayload request p) w = Ok denied.
Proof.
  intros Hsw Hu Haud. unfold run. rewrite verifyPayload_run. cbn [fst].
  destruct (has_expired _ p); [reflexivity|].
  rewrite Hsw. unfold namespace_check. rewrite Hu.
  now rewrite (empty_aud_rejects_all p (namespace_of u) Haud).
Qed.

(** A GET whose URL ends in [/v2/] is granted to any unexpired token with
    a capability, whatever its path and whatever [aud]. *)
Lemma url_suffix_bypass request p w :
  method request = "GET" ->
  checkIfV2OnlyPath request = true ->
  capabilities p <> [] ->
  has_expired (clock_seconds w) p = false ->
  run (verifyPayload request p) w = Ok (granted p).
Proof.
  intros Hm Hping Hcaps Hexp. unfold run. rewrite verifyPayload_run. cbn [fst].
  rewrite Hexp.
  now rewrite (proj2 (method_switch_bypass request p) (conj Hm (conj Hping Hcaps))).
Qed.

(** An [exp] of 0 never expires. *)
Lemma zero_exp_never_expires now p :
  exp p = Some 0 -> has_expired now p = false.
Proof. unfold has_expired. now intros ->. Qed.

(** When [verifyPayload] grants. *)
Lemma verifyPayload_grants_iff request p w :
  run (verifyPayload request p) w = Ok (granted p) <->
  has_expired (clock_seconds w) p = false /\
  (method_switch request p = Return (granted p) \/
   method_switch request p = Break /\
   exists u, Url.parse (url request) = Some u /\
             aud_rejects p (namespace_of u) = false).
Proof.
  unfold run. rewrite verifyPayload_run. cbn [fst].
  destruct (has_expired _ p).
  { split; [discriminate | intros [[=] _]]. }
  destruct (method_switch_exits request p) as [Hsw | [Hsw | Hsw]]; rewrite Hsw.
  - unfold namespace_check. destruct (Url.parse (url request)) as [u|].
    + destruct (aud_rejects p (namespace_of u)) eqn:Hrej; split.
      * discriminate.
      * intros [_ [[=] | (_ & u' & [= <-] & H)]]. congruence.
      * intros _. split; [reflexivity|]. right. split; [reflexivity|]. eauto.
      * reflexivity.
    + split; [discriminate|].
      intros [_ [[=] | (_ & u' & [=] & _)]].
  - split; [discriminate|]. intros [_ [[=] | ([=] & _)]].
  - split; auto.
Qed.

(** ** The decision on concrete requests *)

(** C1. A payload whose [aud] is the empty list is denied by the
    namespace check: GET /v2/teamA/manifests/latest with the [pull]
    capability, no [exp] and [aud = []] reaches the check and comes back
    [{verified: false, payload: null}], while the same token without [aud]
    is granted. *)
Theorem empty_aud_denied_by_namespace_check :
  let request := Sample.get "https://registry.example/v2/teamA/manifests/latest" in
  let p := Sample.token_payload [pull] None (Some []) in
  let q := Sample.token_payload [pull] None None in
  method_switch request p = Break /\
  run (verifyPayload request p) Trace.w = Ok denied /\
  run (verifyPayload request q) Trace.w = Ok (granted q).
Proof. repeat split. Qed.

(** C2. The bypass follows the end of the URL string, not the path: a GET
    of path /v2/teamB/manifests/latest whose query ends in /v2/ is granted
    with [push] alone and an [aud] that excludes teamB, and a GET of path
    exactly /v2/ that carries a query is held to the [pull] requirement. *)
Theorem version_ping_bypass_follows_url_suffix :
  let off_path := Sample.get "https://registry.example/v2/teamB/manifests/latest?ref=/v2/" in
  let on_path := Sample.get "https://registry.example/v2/?n=1" in
  let p := Sample.token_payload [push] None (Some ["teamA"]) in
  let q := Sample.token_payload [push] None None in
  (Trace.path_of off_path = Some "/v2/teamB/manifests/latest" /\
   checkIfV2OnlyPath off_path = true /\
   run (verifyPayload off_path p) Trace.w = Ok (granted p)) /\
  (Trace.path_of on_path = Some "/v2/" /\
   checkIfV2OnlyPath on_path = false /\
   run (verifyPayload on_path q) Trace.w = Ok denied).
Proof. repeat split. Qed.

(** C4. A GET off the ping path is granted without [pull]: path
    /v2/teamB/manifests/latest, URL ending in /v2/, capability set
    [[push]]. *)
Theorem get_granted_without_pull :
  let request := Sample.get "https://registry.example/v2/teamB/manifests/latest?ref=/v2/" in
  let p := Sample.token_payload [push] None None in
  Trace.path_of request = Some "/v2/teamB/manifests/latest" /\
  caps_include (capabilities p) pull = false /\
  run (verifyPayload request p) Trace.w = Ok (granted p).
Proof. repeat split. Qed.

(** C5. With [aud = ["teamA"]] and [pull], GET /v2/teamA/manifest is
    granted and GET /v2/teamB/manifest is denied; but the check also
    denies when [aud] is the empty list, and a GET off the ping path whose
    URL ends in /v2/ is granted although its namespace is not in [aud]. *)
Theorem namespace_enforcement_traces :
  let teamA := Sample.get "https://registry.example/v2/teamA/manifest" in
  let teamB := Sample.get "https://registry.example/v2/teamB/manifest" in
  let teamB' := Sample.get "https://registry.example/v2/teamB/manifest?ref=/v2/" in
  let p := Sample.token_payload [pull] None (Some ["teamA"]) in
  let e := Sample.token_payload [pull] None (Some []) in
  (Trace.namespace_in teamA = Some (Some "teamA") /\
   run (verifyPayload teamA p) Trace.w = Ok (granted p)) /\
  (Trace.namespace_in teamB = Some (Some "teamB") /\
   run (verifyPayload teamB p) Trace.w = Ok denied) /\
  (method_switch teamA e = Break /\
   run (verifyPayload teamA e) Trace.w = Ok denied) /\
  (Trace.namespace_in teamB' = Some (Some "teamB") /\
   run (verifyPayload teamB' p) Trace.w = Ok (granted p)).
Proof. repeat split. Qed.

(** C6. A token whose [exp] is present and equal to 0 is not failed on
    expiry: verified at second 1700000100 it is granted. With
    [exp = 1700000100] the same request is denied, with
    [exp = 1700000101] it is granted. *)
Theorem zero_exp_is_not_expired :
  let request := Sample.get "https://registry.example/v2/teamA/manifest" in
  let p := fun e => Sample.token_payload [pull] (Some e) (Some ["teamA"]) in
  clock_seconds Trace.w = 1700000100 /\
  run (verifyPayload request (p 0)) Trace.w = Ok (granted (p 0)) /\
  run (verifyPayload request (p 1700000100)) Trace.w = Ok denied /\
  run (verifyPayload request (p 1700000101)) Trace.w = Ok (granted (p 1700000101)).
Proof. repeat split. Qed.

(** C10. A GET of path /v2 (two pieces, no namespace) whose URL ends in
    /v2/ is granted to a payload with [aud = ["teamA"]]; the same path
    without that ending is denied. *)
Theorem short_path_granted_on_url_suffix :
  let bypassed := Sample.get "https://registry.example/v2?ref=/v2/" in
  let plain := Sample.get "https://registry.example/v2" in
  let p := Sample.token_payload [pull] None (Some ["teamA"]) in
  (Trace.path_of bypassed = Some "/v2" /\
   Trace.namespace_in bypassed = Some None /\
   run (verifyPayload bypassed p) Trace.w = Ok (granted p)) /\
  (Trace.namespace_in plain = Some None /\
   run (verifyPayload plain p) Trace.w = Ok denied).
Proof. repeat split. Qed.

(** ** Issuance, the exception boundary and the facade *)

Section Boundary.

Variable base64url_decode : string -> Outcome string.
Variable JSON_parse : string -> Outcome JsonWebKey.
Variable jwt_sign : RegistryAuthProtocolTokenPayload -> JsonWebKey -> Outcome string.
Variable jwt_verify : string -> JsonWebKey -> Outcome bool.
Variable jwt_decode : string -> Outcome RegistryAuthProtocolTokenPayload.
Variable stripUsernamePasswordFromHeader : Request -> Credentials.

Local Abbreviation import_key := (importKeyFromBase64 base64url_decode JSON_parse).
Local Abbreviation create_token := (createToken base64url_decode JSON_parse jwt_sign).
Local Abbreviation verify_token := (verifyToken jwt_verify jwt_decode).
Local Abbreviation check_credentials :=
  (checkCredentials jwt_verify jwt_decode stripUsernamePasswordFromHeader).

Lemma createToken_payload_run caps namespaces expirationMinutes accountID w :
  createToken_payload caps namespaces expirationMinutes accountID w =
  (Ok (mkPayload "v0" accountID caps (clock_seconds w)
         (match expirationMinutes with
          | Some minutes => Some (clock_seconds (tick w) + 60 * minutes)
          | None => None
          end)
         (Some namespaces)),
   match expirationMinutes with
   | Some _ => tick (tick w)
   | None => tick w
   end).
Proof. destruct expirationMinutes; reflexivity. Qed.

(** [createToken] hands to [jwt.sign] the payload of lines 62 to 71
    and returns what [jwt.sign] returns. *)
Lemma createToken_run caps privateKeyString namespaces expirationMinutes
    accountID w priv :
  import_key privateKeyString = Ok priv ->
  let built := createToken_payload caps namespaces expirationMinutes accountID w in
  exists p, fst built = Ok p /\
    create_token caps privateKeyString namespaces expirationMinutes accountID w =
    (jwt_sign p priv, recorded (snd built) [SignCall p priv]).
Proof.
  intros Hkey built. subst built. rewrite createToken_payload_run.
  eexists. split; [reflexivity|].
  unfold createToken, bind, lift. rewrite Hkey.
  rewrite createToken_payload_run. reflexivity.
Qed.

(** What [verifyToken] does, stage by stage. *)
Lemma verifyToken_run this request token w :
  let key := jwtPublicKey this in
  verify_token this request token w =
  match jwt_verify token key with
  | Throw _ | Ok false => (Ok denied, recorded w [VerifyCall token key])
  | Ok true =>
      let w' := recorded w [VerifyCall token key; DecodeCall token] in
      match jwt_decode token with
      | Throw _ => (Ok denied, w')
      | Ok p =>
          match run (verifyPayload request p) w with
          | Ok res => (Ok res, tick w')
          | Throw _ => (Ok denied, tick w')
          end
      end
  end.
Proof.
  cbv zeta. unfold verifyToken, recorded, run.
  cbv beta iota delta [try_catch bind lift record_call ret].
  destruct (jwt_verify token (jwtPublicKey this)) as [[|]|e];
    cbv beta iota delta [negb]; [|reflexivity|reflexivity].
  cbn [now_ms reads jwt_calls]. rewrite <- app_assoc.
  destruct (jwt_decode token) as [p|e]; [|reflexivity].
  rewrite !verifyPayload_run. unfold clock_seconds, tick.
  cbn [fst now_ms reads jwt_calls app].
  destruct (if has_expired _ p then _ else _); reflexivity.
Qed.

(** Under a matching key pair, [verifyToken] on the token [createToken]
    returned gives what [verifyPayload] gives on the claims built (the
    denial where it throws), and these claims carry the capabilities, the
    namespaces and the account id given. *)
Lemma verifyToken_of_issued_token
    (this : RegistryTokens) caps privateKeyString namespaces
    expirationMinutes accountID (request : Request)
    (issued_in verified_in after_issue : World) token priv p :
  import_key privateKeyString = Ok priv ->
  run (createToken_payload caps namespaces expirationMinutes accountID)
    issued_in = Ok p ->
  create_token caps privateKeyString namespaces expirationMinutes accountID
    issued_in = (Ok token, after_issue) ->
  key_pair_matches jwt_sign jwt_verify jwt_decode priv (jwtPublicKey this) p ->
  run (verify_token this request token) verified_in =
    match run (verifyPayload request p) verified_in with
    | Ok res => Ok res
    | Throw _ => Ok denied
    end /\
  capabilities p = caps /\ aud p = Some namespaces /\ account_id p = accountID.
Proof.
  intros Hkey Hp Hcreate Hmatch.
  destruct (createToken_run caps privateKeyString namespaces
              expirationMinutes accountID issued_in priv Hkey)
    as (p0 & Hp0 & Hrun).
  unfold run in Hp. rewrite Hp in Hp0. injection Hp0 as <-.
  rewrite Hrun in Hcreate. injection Hcreate as Hsign _.
  destruct (Hmatch token Hsign) as [Hv Hd]. split.
  - unfold run at 1. rewrite verifyToken_run. cbv zeta.
    rewrite Hv, Hd. destruct (run (verifyPayload request p) verified_in);
      reflexivity.
  - rewrite createToken_payload_run in Hp. unfold fst in Hp.
    match type of Hp with
    | Ok ?built = Ok _ => assert (Heq : built = p) by congruence
    end.
    subst p. auto.
Qed.

(** C7. [verifyToken] always returns a result and never throws: when
    [jwt.verify] throws or answers false, when [jwt.decode] throws, when
    [verifyPayload] throws or denies, the result is
    [{verified: false, payload: null}]; the result carries a payload
    exactly when [verified] is true, and then every stage succeeded. *)
Theorem verifyToken_never_throws this request token w :
  exists res w', verify_token this request token w = (Ok res, w') /\
    (payload res <> None <-> verified res = true) /\
    (verified res = false -> res = denied) /\
    (verified res = true ->
     exists p, res = granted p /\
       jwt_verify token (jwtPublicKey this) = Ok true /\
       jwt_decode token = Ok p /\
       run (verifyPayload request p) w = Ok (granted p)).
Proof.
  rewrite verifyToken_run. cbv zeta.
  assert (Hdenied : forall w' : World,
    exists res w'', (Ok denied, w') = (Ok res, w'') /\
      (payload res <> None <-> verified res = true) /\
      (verified res = false -> res = denied) /\
      (verified res = true ->
       exists p, res = granted p /\
         jwt_verify token (jwtPublicKey this) = Ok true /\
         jwt_decode token = Ok p /\
         run (verifyPayload request p) w = Ok (granted p))).
  { intros w'. exists denied, w'. cbn. repeat split; try congruence.
    all: intros; discriminate. }
  destruct (jwt_verify token (jwtPublicKey this)) as [[|]|e]; [|apply Hdenied..].
  destruct (jwt_decode token) as [p|e]; [|apply Hdenied].
  destruct (verifyPayload_exits request p w) as [[e He] | [Hd | Hg]].
  - rewrite He. apply Hdenied.
  - rewrite Hd. apply Hdenied.
  - rewrite Hg. eexists _, _. split; [reflexivity|]. cbn.
    repeat split; try congruence; try discriminate. eauto.
Qed.


(** C9. [checkCredentials] first extracts the credentials; a failure
    result of the extraction is returned as it is, and neither the clock
    nor the JWT library is touched; otherwise the password of the
    extracted pair, and nothing else, goes to [verifyToken]. *)
Theorem checkCredentials_extracts_first this request w :
  (forall res, stripUsernamePasswordFromHeader request = inl res ->
     check_credentials this request w = (Ok res, w)) /\
  (forall user password,
     stripUsernamePasswordFromHeader request = inr (user, password) ->
     check_credentials this request w = verify_token this request password w).
Proof.
  unfold checkCredentials. split.
  - intros res ->. reflexivity.
  - intros user password ->. reflexivity.
Qed.

End Boundary.

(** ** The general theorems on an example *)

(** C3. The round trip does not hold for every namespace list. A token
    issued for [[pull; push]] with the empty namespace list, under a
    matching key pair, is denied on PUT /v2/teamA/blobs/uploads/1, a
    request that such a token authorizes (no expiry, [push] present, [aud]
    empty): [verifyToken] returns [{verified: false, payload: null}]. With
    [["teamA"]] the same round trip yields [verified: true] and the claims
    given. *)
Theorem roundtrip_denied_without_namespaces :
  let issue := createToken Stub.base64url_decode Stub.JSON_parse Stub.jwt_sign in
  (issue [pull; push] "p256" [] None None Stub.issue_world =
     (Ok "signed-with-p256",
      recorded (tick Stub.issue_world)
        [SignCall Unrestricted.claims (JWK "p256")]) /\
   key_pair_matches Stub.jwt_sign Stub.jwt_verify Unrestricted.jwt_decode
     (JWK "p256") (jwtPublicKey Stub.registry) Unrestricted.claims /\
   Policy.authorizes (clock_seconds Stub.verify_world) Stub.push_request
     Unrestricted.claims = true /\
   run (verifyToken Stub.jwt_verify Unrestricted.jwt_decode Stub.registry
          Stub.push_request "signed-with-p256") Stub.verify_world =
   Ok denied) /\
  (issue [pull; push] "p256" ["teamA"] (Some 30) (Some "acct-1")
     Stub.issue_world =
     (Ok "signed-with-p256",
      recorded (tick (tick Stub.issue_world))
        [SignCall Stub.claims (JWK "p256")]) /\
   key_pair_matches Stub.jwt_sign Stub.jwt_verify Stub.jwt_decode
     (JWK "p256") (jwtPublicKey Stub.registry) Stub.claims /\
   Policy.authorizes (clock_seconds Stub.verify_world) Stub.push_request
     Stub.claims = true /\
   run (verifyToken Stub.jwt_verify Stub.jwt_decode Stub.registry
          Stub.push_request "signed-with-p256") Stub.verify_world =
   Ok (granted Stub.claims)).
Proof.
  cbv zeta. split; (split; [reflexivity|]); (split; [|split; reflexivity]).
  - intros token [= <-]. split; reflexivity.
  - intros token [= <-]. split; reflexivity.
Qed.



(** A request without credentials comes back denied in an untouched
    world; a request with credentials is verified on its password. *)
Lemma checkCredentials_extracts_first_witness :
  checkCredentials Stub.jwt_verify Stub.jwt_decode
    Stub.stripUsernamePasswordFromHeader Stub.registry
    Stub.anonymous_request Stub.verify_world = (Ok denied, Stub.verify_world) /\
  checkCredentials Stub.jwt_verify Stub.jwt_decode
    Stub.stripUsernamePasswordFromHeader Stub.registry
    Stub.push_request Stub.verify_world =
  verifyToken Stub.jwt_verify Stub.jwt_decode Stub.registry
    Stub.push_request "signed-with-p256" Stub.verify_world.
Proof.
  split.
  - apply (proj1 (checkCredentials_extracts_first Stub.jwt_verify
                    Stub.jwt_decode Stub.stripUsernamePasswordFromHeader
                    Stub.registry Stub.anonymous_request Stub.verify_world)).
    reflexivity.
  - apply (proj2 (checkCredentials_extracts_first Stub.jwt_verify
                    Stub.jwt_decode Stub.stripUsernamePasswordFromHeader
                    Stub.registry Stub.push_request Stub.verify_world)
             "user" "signed-with-p256").
    reflexivity.
Defined.


(** * Further properties of the decision *)

(** X1. A token without any capability is denied every request, whatever
    the method, the URL, the time and [aud]. *)
Theorem no_capability_is_denied request p w :
  capabilities p = [] ->
  run (verifyPayload request p) w = Ok denied.
Proof.
  intros Hcaps. unfold run. rewrite verifyPayload_run. cbn [fst].
  destruct (has_expired _ p); [reflexivity|].
  unfold method_switch. rewrite Hcaps. cbn. rewrite andb_true_r.
  repeat match goal with
         | |- context [if ?b then _ else _] => destruct b
         end; reflexivity.
Qed.

Lemma no_capability_is_denied_witness :
  run (verifyPayload (Sample.get "https://registry.example/v2/")
         (Sample.token_payload [] None None)) Trace.w = Ok denied.
Proof. apply no_capability_is_denied. reflexivity. Defined.

(** X2. A token without [push] is denied every POST, PUT, DELETE and
    PATCH. *)
Theorem read_only_token_cannot_write request p w :
  caps_include (capabilities p) push = false ->
  In (method request) ["POST"; "PUT"; "DELETE"; "PATCH"] ->
  run (verifyPayload request p) w = Ok denied.
Proof.
  intros Hpush Hm. unfold run. rewrite verifyPayload_run. cbn [fst].
  destruct (has_expired _ p); [reflexivity|].
  unfold method_switch. rewrite Hpush.
  cbn in Hm. destruct Hm as [<- | [<- | [<- | [<- | []]]]]; reflexivity.
Qed.

Lemma read_only_token_cannot_write_witness :
  run (verifyPayload Stub.anonymous_request
         (Sample.token_payload [pull] None None)) Trace.w = Ok denied.
Proof.
  apply read_only_token_cannot_write; [reflexivity | cbn; auto].
Defined.

(** X3. A method other than HEAD, GET, POST, PUT, DELETE and PATCH, spelt
    exactly so, is denied whatever the token. *)
Theorem unsupported_method_is_denied request p w :
  ~ In (method request) ["HEAD"; "GET"; "POST"; "PUT"; "DELETE"; "PATCH"] ->
  run (verifyPayload request p) w = Ok denied.
Proof.
  intros Hm. unfold run. rewrite verifyPayload_run. cbn [fst].
  destruct (has_expired _ p); [reflexivity|].
  unfold method_switch.
  repeat match goal with
         | |- context [String.eqb (method request) ?m] =>
             destruct (String.eqb_spec (method request) m) as [Heq|_];
             [exfalso; apply Hm; rewrite Heq; cbn; tauto|]
         end.
  reflexivity.
Qed.

Lemma unsupported_method_is_denied_witness :
  run (verifyPayload (mkRequest "get" "https://registry.example/v2/" [])
         (Sample.token_payload [pull; push] None None)) Trace.w = Ok denied.
Proof.
  apply unsupported_method_is_denied. cbn.
  intros [H | [H | [H | [H | [H | [H | []]]]]]]; discriminate H.
Defined.

(** X4. Only a GET whose URL ends in [/v2/] escapes the namespace check:
    any other request granted to a token that carries [aud] has a
    namespace, and [aud] lists it. *)
Theorem grant_outside_bypass_is_in_aud request p w allowed :
  method request <> "GET" \/ checkIfV2OnlyPath request = false ->
  aud p = Some allowed ->
  run (verifyPayload request p) w = Ok (granted p) ->
  exists u ns, Url.parse (url request) = Some u /\
               namespace_of u = Some ns /\ In ns allowed.
Proof.
  intros Hout Haud Hrun.
  apply verifyPayload_grants_iff in Hrun.
  destruct Hrun as [_ [Hby | (_ & u & Hu & Hrej)]].
  - apply method_switch_bypass in Hby. destruct Hby as (Hm & Hping & _).
    destruct Hout; congruence.
  - exists u. unfold aud_rejects in Hrej. rewrite Haud in Hrej.
    destruct (namespace_of u) as [ns|]; [|discriminate].
    exists ns. repeat split; [assumption|].
    apply includes_In. now apply negb_false_iff.
Qed.

Lemma grant_outside_bypass_is_in_aud_witness :
  exists u ns, Url.parse (url Stub.push_request) = Some u /\
               namespace_of u = Some ns /\ In ns ["teamA"].
Proof.
  apply (grant_outside_bypass_is_in_aud Stub.push_request Stub.claims
           Stub.verify_world ["teamA"]).
  - left. discriminate.
  - reflexivity.
  - reflexivity.
Defined.

(** X5. The clock only ever takes a grant away: a request granted at one
    time is granted at every earlier time. *)
Theorem grant_holds_earlier request p w w' :
  clock_seconds w' <= clock_seconds w ->
  run (verifyPayload request p) w = Ok (granted p) ->
  run (verifyPayload request p) w' = Ok (granted p).
Proof.
  intros Hle Hrun. apply verifyPayload_grants_iff in Hrun.
  apply verifyPayload_grants_iff. destruct Hrun as [Hexp Hrest].
  split; [|assumption].
  apply not_true_is_false. intros Hexp'.
  apply has_expired_spec in Hexp'. destruct Hexp' as (e & He & Hz & Hle').
  assert (has_expired (clock_seconds w) p = true); [|congruence].
  apply has_expired_spec. exists e. repeat split; auto. lia.
Qed.

Lemma grant_holds_earlier_witness :
  run (verifyPayload Stub.push_request Stub.claims) Stub.issue_world =
  Ok (granted Stub.claims).
Proof.
  apply (grant_holds_earlier Stub.push_request Stub.claims
           Stub.verify_world Stub.issue_world).
  - vm_compute. discriminate.
  - reflexivity.
Defined.

Lemma caps_include_refl c caps : caps_include (c :: caps) c = true.
Proof. unfold caps_include. cbn. now destruct c. Qed.

(** X6. More capabilities never cost a grant: a request granted to a
    token is granted to the same token with a capability set that
    includes the former. *)
Theorem grant_survives_more_capabilities request p caps w :
  (forall c, caps_include (capabilities p) c = true -> caps_include caps c = true) ->
  run (verifyPayload request p) w = Ok (granted p) ->
  run (verifyPayload request (with_capabilities p caps)) w =
  Ok (granted (with_capabilities p caps)).
Proof.
  intros Hinc Hrun. apply verifyPayload_grants_iff in Hrun.
  apply verifyPayload_grants_iff. destruct Hrun as [Hexp Hrest].
  split; [exact Hexp|].
  assert (Hne : capabilities p <> [] -> caps <> []).
  { destruct (capabilities p) as [|c rest] eqn:Hc; [congruence|].
    intros _ ->. specialize (Hinc c (caps_include_refl c rest)). discriminate. }
  destruct Hrest as [Hby | (Hbr & u & Hu & Hrej)].
  - left. apply method_switch_bypass in Hby.
    apply method_switch_bypass. cbn [capabilities with_capabilities].
    destruct Hby as (Hm & Hping & Hcaps). auto.
  - assert (Hrej' : aud_rejects (with_capabilities p caps) (namespace_of u) = false)
      by exact Hrej.
    assert (Hdone : Break = Break /\
              exists u0, Url.parse (url request) = Some u0 /\
                aud_rejects (with_capabilities p caps) (namespace_of u0) = false)
      by eauto.
    right. revert Hbr. unfold method_switch.
    cbn [capabilities with_capabilities].
    destruct (String.eqb (method request) "HEAD").
    { destruct (caps_include (capabilities p) pull) eqn:H1.
      - rewrite (Hinc pull H1). intros _. exact Hdone.
      - destruct (caps_include (capabilities p) push) eqn:H2; [|discriminate].
        rewrite (Hinc push H2).
        destruct (caps_include caps pull); intros _; exact Hdone. }
    destruct (String.eqb (method request) "GET").
    { destruct (checkIfV2OnlyPath request).
      - cbn. destruct (List.length (capabilities p) =? 0)%nat; discriminate.
      - cbn. destruct (caps_include (capabilities p) pull) eqn:H1; [|discriminate].
        rewrite (Hinc pull H1). intros _. exact Hdone. }
    destruct (_ || _); [|discriminate].
    destruct (caps_include (capabilities p) push) eqn:H2; [|discriminate].
    rewrite (Hinc push H2). intros _. exact Hdone.
Qed.

Lemma grant_survives_more_capabilities_witness :
  let p := Sample.token_payload [pull] None (Some ["teamA"]) in
  run (verifyPayload (Sample.get "https://registry.example/v2/teamA/manifest")
         (with_capabilities p [push; pull])) Trace.w =
  Ok (granted (with_capabilities p [push; pull])).
Proof.
  apply (grant_survives_more_capabilities
           (Sample.get "https://registry.example/v2/teamA/manifest")
           (Sample.token_payload [pull] None (Some ["teamA"])) [push; pull] Trace.w).
  - intros [|] H; [reflexivity | discriminate H].
  - reflexivity.
Defined.

(** X7. What a token is good for: before its expiry, a request whose
    namespace [aud] lists (or any namespace, without [aud]) is granted on
    GET and HEAD to a token with [pull], and on HEAD, POST, PUT, DELETE
    and PATCH to a token with [push]. *)
Theorem token_grants_within_its_namespaces request p w u :
  has_expired (clock_seconds w) p = false ->
  Url.parse (url request) = Some u ->
  (aud p = None \/
   exists allowed ns, aud p = Some allowed /\ namespace_of u = Some ns /\
                      In ns allowed) ->
  (In (method request) ["GET"; "HEAD"] /\
   caps_include (capabilities p) pull = true) \/
  (In (method request) ["HEAD"; "POST"; "PUT"; "DELETE"; "PATCH"] /\
   caps_include (capabilities p) push = true) ->
  run (verifyPayload request p) w = Ok (granted p).
Proof.
  intros Hexp Hu Haud Hcap. apply verifyPayload_grants_iff.
  split; [assumption|].
  assert (Hrej : aud_rejects p (namespace_of u) = false).
  { destruct Haud as [Hnone | (allowed & ns & Hsome & Hns & Hin)].
    - now apply absent_aud_is_unrestricted.
    - unfold aud_rejects. rewrite Hsome, Hns. apply negb_false_iff.
      now apply includes_In. }
  assert (Htable : method_table (method request) (checkIfV2OnlyPath request)
                     (capabilities p) = true).
  { unfold method_table.
    destruct Hcap as [[Hm Hc] | [Hm Hc]]; cbn in Hm.
    - destruct Hm as [<- | [<- | []]]; cbn; rewrite Hc; [|reflexivity].
      destruct (checkIfV2OnlyPath request); [|reflexivity].
      destruct (capabilities p); [discriminate Hc | reflexivity].
    - destruct Hm as [<- | [<- | [<- | [<- | [<- | []]]]]]; cbn; rewrite Hc;
        auto using orb_true_r. }
  apply method_switch_refines_table in Htable.
  destruct (method_switch_exits request p) as [Hsw | [Hsw | Hsw]].
  - right. split; [assumption|]. eauto.
  - contradiction.
  - now left.
Qed.

Lemma token_grants_within_its_namespaces_witness :
  run (verifyPayload Stub.push_request Stub.claims) Stub.verify_world =
  Ok (granted Stub.claims).
Proof.
  apply (token_grants_within_its_namespaces Stub.push_request Stub.claims
           Stub.verify_world
           (Url.mkURL "https:" "registry.example" "/v2/teamA/blobs/uploads/1" "" "")).
  - reflexivity.
  - reflexivity.
  - right. exists ["teamA"], "teamA". cbn. auto.
  - right. cbn. auto.
Defined.

(** The pieces of a split never hold the separator. *)
Lemma split_pieces_lack_separator sep s piece :
  In piece (Str.split sep s) -> Js.contains sep piece = false.
Proof.
  revert piece. induction s as [|c rest IH]; intros piece; cbn.
  - intros [<- | []]. reflexivity.
  - destruct (Ascii.eqb c sep) eqn:Hc.
    + intros [<- | Hin]; [reflexivity | now apply IH].
    + destruct (Str.split sep rest) as [|first others].
      * intros [<- | []]. cbn. now rewrite Hc.
      * intros [<- | Hin].
        -- cbn. rewrite Hc. cbn. apply IH. now left.
        -- apply IH. now right.
Qed.

(** X8. An [aud] whose entries all hold a [/] matches no request: apart
    from the GET bypass, nothing is granted to such a token. *)
Theorem aud_with_slash_matches_nothing request p w allowed res :
  aud p = Some allowed ->
  (forall ns, In ns allowed -> Js.contains "/" ns = true) ->
  method_switch request p <> Return (granted p) ->
  run (verifyPayload request p) w = Ok res ->
  res = denied.
Proof.
  intros Haud Hslash Hnot Hrun.
  destruct (verifyPayload_exits request p w) as [[e He] | [Hd | Hg]];
    [congruence | congruence |].
  exfalso. apply verifyPayload_grants_iff in Hg.
  destruct Hg as [_ [Hby | (_ & u & Hu & Hrej)]]; [contradiction|].
  unfold aud_rejects in Hrej. rewrite Haud in Hrej.
  destruct (namespace_of u) as [ns|] eqn:Hns; [|discriminate].
  apply negb_false_iff, includes_In in Hrej.
  specialize (Hslash ns Hrej).
  unfold namespace_of in Hns. apply nth_error_In in Hns.
  apply split_pieces_lack_separator in Hns. congruence.
Qed.

Lemma aud_with_slash_matches_nothing_witness :
  denied = denied.
Proof.
  apply (aud_with_slash_matches_nothing
           (Sample.get "https://registry.example/v2/org/team/manifests/latest")
           (Sample.token_payload [pull] None (Some ["org/team"]))
           Trace.w ["org/team"] denied).
  - reflexivity.
  - intros ns [<- | []]. reflexivity.
  - discriminate.
  - reflexivity.
Defined.

Section Issuance.

Variable base64url_decode : string -> Outcome string.
Variable JSON_parse : string -> Outcome JsonWebKey.
Variable jwt_sign : RegistryAuthProtocolTokenPayload -> JsonWebKey -> Outcome string.
Variable jwt_verify : string -> JsonWebKey -> Outcome bool.
Variable jwt_decode : string -> Outcome RegistryAuthProtocolTokenPayload.

(** X9. A token that [jwt.verify] does not accept (it answers false or
    throws) is never decoded: the result is the denial, the library saw
    the one call of [verify], and the clock was not read. *)
Theorem unverified_token_is_never_decoded this request token w :
  jwt_verify token (jwtPublicKey this) <> Ok true ->
  verifyToken jwt_verify jwt_decode this request token w =
  (Ok denied, recorded w [VerifyCall token (jwtPublicKey this)]).
Proof.
  intros Hno. rewrite verifyToken_run. cbv zeta.
  destruct (jwt_verify token (jwtPublicKey this)) as [[|]|e];
    [congruence | reflexivity | reflexivity].
Qed.

(** X10. A private key that cannot be imported makes [createToken] throw
    the error of the import, before the clock is read or anything is
    signed. *)
Theorem createToken_bad_key_throws caps privateKeyString namespaces
    expirationMinutes accountID w e :
  importKeyFromBase64 base64url_decode JSON_parse privateKeyString = Throw e ->
  createToken base64url_decode JSON_parse jwt_sign caps privateKeyString
    namespaces expirationMinutes accountID w = (Throw e, w).
Proof.
  intros Hkey. unfold createToken, bind, lift. now rewrite Hkey.
Qed.

End Issuance.

Lemma unverified_token_is_never_decoded_witness :
  verifyToken Stub.jwt_verify Stub.jwt_decode Stub.registry
    Stub.push_request "forged" Stub.verify_world =
  (Ok denied, recorded Stub.verify_world [VerifyCall "forged" (JWK "p256")]).
Proof.
  apply (unverified_token_is_never_decoded Stub.jwt_verify Stub.jwt_decode
           Stub.registry Stub.push_request "forged" Stub.verify_world).
  discriminate.
Defined.

Lemma createToken_bad_key_throws_witness :
  createToken (fun _ => Throw (Error "Invalid character")) Stub.JSON_parse
    Stub.jwt_sign [pull] "%%%" [] None None Stub.issue_world =
  (Throw (Error "Invalid character"), Stub.issue_world).
Proof.
  apply (createToken_bad_key_throws (fun _ => Throw (Error "Invalid character"))
           Stub.JSON_parse Stub.jwt_sign).
  reflexivity.
Defined.

(** X11. A payload whose [exp] is present and not 0 is counted expired
    exactly from second [exp] on: from then on every request is denied, and
    before, the decision is that of the method switch and the namespace
    check. *)
Theorem present_exp_expires_at_exp request p w e :
  exp p = Some e -> e <> 0 ->
  (forall now, has_expired now p = (e <=? now)) /\
  (e <= clock_seconds w -> run (verifyPayload request p) w = Ok denied) /\
  (clock_seconds w < e ->
   run (verifyPayload request p) w =
   match method_switch request p with
   | Return r => Ok r
   | Break => namespace_check request p
   end).
Proof.
  intros He Hnz. split; [|split].
  - intros now. unfold has_expired. rewrite He.
    apply Z.eqb_neq in Hnz. rewrite Hnz. cbn [negb andb]. apply Z.geb_leb.
  - intros Hle. exact (expired_is_denied request p w e He Hnz Hle).
  - intros Hlt. apply unexpired_is_decided_later.
    intros e' He'. rewrite He in He'. injection He' as <-. exact Hlt.
Qed.

Lemma present_exp_expires_at_exp_witness :
  (forall now, has_expired now Stub.claims = (1700001800 <=? now)) /\
  (1700001800 <= clock_seconds Stub.verify_world ->
   run (verifyPayload Stub.push_request Stub.claims) Stub.verify_world =
   Ok denied) /\
  (clock_seconds Stub.verify_world < 1700001800 ->
   run (verifyPayload Stub.push_request Stub.claims) Stub.verify_world =
   match method_switch Stub.push_request Stub.claims with
   | Return r => Ok r
   | Break => namespace_check Stub.push_request Stub.claims
   end).
Proof.
  apply (present_exp_expires_at_exp Stub.push_request Stub.claims
           Stub.verify_world 1700001800).
  - reflexivity.
  - discriminate.
Defined.

(** X12. A token issued without [expirationMinutes] carries no [exp] and
    is never failed on expiry. *)
Theorem issued_without_expiry_never_expires caps namespaces accountID w p :
  run (createToken_payload caps namespaces None accountID) w = Ok p ->
  exp p = None /\ forall now, has_expired now p = false.
Proof.
  intros Hp. unfold run in Hp. rewrite createToken_payload_run in Hp.
  cbn [fst] in Hp. injection Hp as <-. split; reflexivity.
Qed.

Lemma issued_without_expiry_never_expires_witness :
  let p := mkPayload "v0" None [pull] 1700000000 None (Some ["teamA"]) in
  exp p = None /\ forall now, has_expired now p = false.
Proof.
  apply (issued_without_expiry_never_expires [pull] ["teamA"] None
           Stub.issue_world).
  reflexivity.
Defined.

(** * The issuing script *)

(** ** Strings that end in a given character *)

Lemma drop_length_app b t : Str.drop (String.length b) (b ++ t) = t.
Proof. induction b as [|c b IH]; cbn; [now destruct t | exact IH]. Qed.

Lemma length_snoc b c : String.length (b ++ String c "") = S (String.length b).
Proof. induction b as [|a b IH]; cbn; [reflexivity | now rewrite IH]. Qed.

Lemma endsWith_snoc b c c' :
  Str.endsWith (b ++ String c "") (String c' "") = Ascii.eqb c c'.
Proof.
  unfold Str.endsWith. rewrite length_snoc. cbn [String.length Nat.leb andb].
  replace (S (String.length b) - 1)%nat with (String.length b) by lia.
  rewrite drop_length_app. cbn.
  destruct (Ascii.eqb c c'); reflexivity.
Qed.

Lemma slice_snoc b c : Js.slice_0_minus1 (b ++ String c "") = b.
Proof.
  induction b as [|a b IH]; [reflexivity|].
  cbn [append Js.slice_0_minus1]. rewrite IH.
  destruct b; reflexivity.
Qed.

Lemma snoc_not_empty b c : String.eqb (b ++ String c "") "" = false.
Proof. destruct b; reflexivity. Qed.

Lemma string_snoc_cases s :
  s = "" \/ exists b c, s = b ++ String c "".
Proof.
  induction s as [|a s IH]; [now left | right].
  destruct IH as [-> | (b & c & ->)].
  - exists "", a. reflexivity.
  - exists (String a b), c. reflexivity.
Qed.

(** [decodeTime] on a string by its last character. *)
Lemma decodeTime_snoc b c :
  IssueToken.decodeTime (b ++ String c "") =
  let n := Js.parseInt b in
  if Ascii.eqb c "m" then IssueToken.Minutes n
  else if Ascii.eqb c "h" then IssueToken.Minutes (Js.times n 60)
  else if Ascii.eqb c "d" then IssueToken.Minutes (Js.times (Js.times n 60) 24)
  else if Ascii.eqb c "s" then IssueToken.Minutes (Js.over n 60)
  else IssueToken.Exit 2.
Proof.
  unfold IssueToken.decodeTime.
  rewrite snoc_not_empty, !endsWith_snoc, slice_snoc. reflexivity.
Qed.

(** ** [decodeTime] *)

(** X13. [decodeTime] gives [undefined] on the empty string only, and ends
    the process, with code 2, exactly on a string that is not empty and
    whose last character is none of [m], [h], [d], [s]; whatever stands
    before a known unit, the result is a number. *)
Theorem decodeTime_outcomes time :
  (IssueToken.decodeTime time = IssueToken.Undefined <-> time = "") /\
  (forall code, IssueToken.decodeTime time = IssueToken.Exit code <->
     code = 2 /\ exists b c, time = b ++ String c "" /\
                             ~ In c IssueToken.units) /\
  (forall b c, time = b ++ String c "" -> In c IssueToken.units ->
     exists n, IssueToken.decodeTime time = IssueToken.Minutes n).
Proof.
  assert (Hunit : forall c,
            In c IssueToken.units <->
            Ascii.eqb c "m" || Ascii.eqb c "h" || Ascii.eqb c "d" ||
            Ascii.eqb c "s" = true).
  { intros c. unfold IssueToken.units. cbn [In].
    rewrite !orb_true_iff, !Ascii.eqb_eq. intuition congruence. }
  assert (Hsnoc_ne : forall b c, b ++ String c "" <> "").
  { intros [|] c; discriminate. }
  destruct (string_snoc_cases time) as [-> | (b & c & ->)].
  - repeat split; try discriminate; try reflexivity.
    + intros (_ & b & c & H & _). symmetry in H. now apply Hsnoc_ne in H.
    + intros b c H. symmetry in H. now apply Hsnoc_ne in H.
  - assert (Hinj : forall b' c', b ++ String c "" = b' ++ String c' "" -> c = c').
    { intros b' c' H.
      assert (H' : Str.endsWith (b ++ String c "") (String c' "") = true).
      { rewrite H, endsWith_snoc. apply Ascii.eqb_refl. }
      rewrite endsWith_snoc in H'. now apply Ascii.eqb_eq. }
    pose proof (Hunit c) as Hc. rewrite decodeTime_snoc. cbv zeta.
    destruct (Ascii.eqb c "m" || Ascii.eqb c "h" || Ascii.eqb c "d" ||
              Ascii.eqb c "s") eqn:Hknown.
    + assert (Hnum : exists n,
                (if Ascii.eqb c "m" then IssueToken.Minutes (Js.parseInt b)
                 else if Ascii.eqb c "h"
                 then IssueToken.Minutes (Js.times (Js.parseInt b) 60)
                 else if Ascii.eqb c "d"
                 then IssueToken.Minutes (Js.times (Js.times (Js.parseInt b) 60) 24)
                 else if Ascii.eqb c "s"
                 then IssueToken.Minutes (Js.over (Js.parseInt b) 60)
                 else IssueToken.Exit 2) = IssueToken.Minutes n).
      { destruct (Ascii.eqb c "m"); [eauto|].
        destruct (Ascii.eqb c "h"); [eauto|].
        destruct (Ascii.eqb c "d"); [eauto|].
        destruct (Ascii.eqb c "s"); [eauto | discriminate]. }
      destruct Hnum as [n ->]. split; [|split].
      * split; [discriminate|]. intros H. now apply Hsnoc_ne in H.
      * intros code. split; [discriminate|].
        intros (_ & b' & c' & H & Hnot). apply Hinj in H. subst c'.
        exfalso. apply Hnot, Hc. reflexivity.
      * intros _ _ _ _. eauto.
    + rewrite !orb_false_iff in Hknown.
      destruct Hknown as [[[-> ->] ->] ->]. split; [|split].
      * split; [discriminate|]. intros H. now apply Hsnoc_ne in H.
      * intros code. split.
        -- intros [= <-]. split; [reflexivity|]. exists b, c.
           split; [reflexivity|]. intros Hin. apply Hc in Hin. discriminate.
        -- intros (-> & _). reflexivity.
      * intros b' c' H Hin. apply Hinj in H. subst c'.
        apply Hc in Hin. discriminate.
Qed.

(** X14. A known unit with no number before it is not refused: the result
    is [NaN] minutes. *)
Theorem decodeTime_accepts_missing_number b c :
  In c IssueToken.units ->
  Js.parseInt b = Js.NaN ->
  IssueToken.decodeTime (b ++ String c "") = IssueToken.Minutes Js.NaN.
Proof.
  intros Hc Hnan. rewrite decodeTime_snoc, Hnan. cbv zeta.
  cbn in Hc. destruct Hc as [<- | [<- | [<- | [<- | []]]]]; reflexivity.
Qed.

Lemma decodeTime_accepts_missing_number_witness :
  IssueToken.decodeTime ("soon" ++ "h") = IssueToken.Minutes Js.NaN.
Proof.
  apply (decodeTime_accepts_missing_number "soon" "h"); [cbn; auto | reflexivity].
Defined.

(** ** Decimal numerals *)

Lemma decimal_char_cases c :
  Js.is_decimal c = true ->
  In c ["0"; "1"; "2"; "3"; "4"; "5"; "6"; "7"; "8"; "9"]%char.
Proof.
  destruct c as [b0 b1 b2 b3 b4 b5 b6 b7].
  destruct b0, b1, b2, b3, b4, b5, b6, b7; intros H;
    try discriminate H; cbn; tauto.
Qed.

Ltac each_decimal c H :=
  let Hin := fresh "Hin" in
  pose proof (decimal_char_cases c H) as Hin; cbn [In] in Hin;
  repeat (destruct Hin as [<- | Hin]); [.. | contradiction].

Lemma decimal_not_whitespace c :
  Js.is_decimal c = true -> Js.is_whitespace c = false.
Proof. intros H. each_decimal c H; reflexivity. Qed.

Lemma decimal_digit_of c :
  Js.is_decimal c = true ->
  Js.digit_of 10 c = Some (Z.of_nat (nat_of_ascii c) - 48).
Proof. intros H. each_decimal c H; reflexivity. Qed.

Lemma digits_value_decimal s acc :
  Js.all_decimal s = true ->
  Js.digits_value 10 s (Some acc) = Some (Js.decimal_from acc s).
Proof.
  revert acc. induction s as [|c s IH]; intros acc; cbn [Js.all_decimal];
    [reflexivity|].
  intros H. apply andb_true_iff in H. destruct H as [Hc Hs].
  cbn [Js.digits_value Js.decimal_from]. rewrite (decimal_digit_of c Hc).
  now apply IH.
Qed.

(** A numeral has no sign and no [0x] in front. *)
Lemma decimal_unsigned c s :
  Js.is_decimal c = true ->
  match String c s with
  | String "-" rest => (-1, rest)
  | String "+" rest => (1, rest)
  | _ => (1, String c s)
  end = (1, String c s).
Proof. intros H. each_decimal c H; reflexivity. Qed.

Lemma decimal_not_hex c s :
  Js.is_decimal c = true -> Js.all_decimal s = true ->
  String.prefix "0x" (String c s) || String.prefix "0X" (String c s) = false.
Proof.
  intros Hc Hs. destruct s as [|c' s].
  - each_decimal c Hc; reflexivity.
  - cbn [Js.all_decimal] in Hs. apply andb_true_iff in Hs.
    destruct Hs as [Hc' _].
    each_decimal c Hc; try reflexivity.
    each_decimal c' Hc'; reflexivity.
Qed.

(** [parseInt] reads a decimal numeral as the number it stands for. *)
Lemma parseInt_decimal s :
  Js.all_decimal s = true -> s <> "" ->
  Js.parseInt s = Js.Num (inject_Z (Js.decimal_value s)).
Proof.
  destruct s as [|c s]; [congruence|]. intros H _.
  cbn [Js.all_decimal] in H. apply andb_true_iff in H. destruct H as [Hc Hs].
  unfold Js.parseInt. cbn [Str.drop_while].
  rewrite (decimal_not_whitespace c Hc), (decimal_unsigned c s Hc).
  cbn [fst snd]. rewrite (decimal_not_hex c s Hc Hs). cbn [fst snd].
  cbn [Js.digits_value]. rewrite (decimal_digit_of c Hc).
  rewrite (digits_value_decimal s _ Hs).
  unfold Js.decimal_value. cbn [Js.decimal_from].
  rewrite Z.mul_1_l. reflexivity.
Qed.

(** X15. A decimal numeral followed by a unit, where 1440 times its value
    is at most 2^53 (so that each number involved is a whole number a
    double holds exactly): [m] gives that many minutes, [h] sixty times as
    many and [d] 1440 times as many. *)
Theorem decodeTime_decimal numeral :
  Js.all_decimal numeral = true -> numeral <> "" ->
  Js.decimal_value numeral * 1440 <= 9007199254740992 ->
  let n := Js.decimal_value numeral in
  IssueToken.decodeTime (numeral ++ "m") = IssueToken.Minutes (Js.Num (inject_Z n)) /\
  IssueToken.decodeTime (numeral ++ "h") =
    IssueToken.Minutes (Js.Num (inject_Z (n * 60))) /\
  IssueToken.decodeTime (numeral ++ "d") =
    IssueToken.Minutes (Js.Num (inject_Z (n * 60 * 24))).
Proof.
  intros Hdec Hne _ n.
  rewrite !decodeTime_snoc, (parseInt_decimal numeral Hdec Hne).
  repeat split.
Qed.

Lemma decodeTime_decimal_witness :
  IssueToken.decodeTime ("30" ++ "m") = IssueToken.Minutes (Js.Num (inject_Z 30)) /\
  IssueToken.decodeTime ("30" ++ "h") = IssueToken.Minutes (Js.Num (inject_Z (30 * 60))) /\
  IssueToken.decodeTime ("30" ++ "d") =
    IssueToken.Minutes (Js.Num (inject_Z (30 * 60 * 24))).
Proof.
  apply (decodeTime_decimal "30");
    [reflexivity | discriminate | vm_compute; discriminate].
Defined.

(** ** The answers to the prompts *)

(** X16. The issued capability set always has [pull], and has [push]
    exactly when the answer to the read-only prompt is empty: any answer
    that is not empty, [n] and [N] included, gives a read-only token. *)
Theorem push_only_on_empty_answer readOnly :
  caps_include (IssueToken.chosen_capabilities readOnly) pull = true /\
  (caps_include (IssueToken.chosen_capabilities readOnly) push = true <->
   readOnly = "").
Proof.
  unfold IssueToken.chosen_capabilities.
  destruct (String.eqb_spec readOnly "") as [-> | Hne]; cbn.
  - split; [reflexivity|]. split; reflexivity.
  - split; [reflexivity|]. split; [discriminate | contradiction].
Qed.

Lemma split_not_nil sep s : Str.split sep s <> [].
Proof.
  destruct s as [|c s]; cbn; [discriminate|].
  destruct (Ascii.eqb c sep); [discriminate|].
  destruct (Str.split sep s); discriminate.
Qed.

Lemma split_pieces_any f sep s piece :
  In piece (Str.split sep s) -> Js.any f piece = true -> Js.any f s = true.
Proof.
  revert piece. induction s as [|c rest IH]; intros piece; cbn.
  - intros [<- | []]. auto.
  - destruct (Ascii.eqb c sep).
    + intros [<- | Hin] H; [discriminate H|].
      rewrite (IH piece Hin H). apply orb_true_r.
    + destruct (Str.split sep rest) as [|first others].
      * intros [<- | []] H. cbn in H. apply orb_true_iff in H.
        destruct H as [-> | H]; [reflexivity | discriminate H].
      * intros [<- | Hin] H.
        -- cbn in H. apply orb_true_iff in H. destruct H as [-> | H];
             [reflexivity|].
           rewrite (IH first (or_introl eq_refl) H). apply orb_true_r.
        -- rewrite (IH piece (or_intror Hin) H). apply orb_true_r.
Qed.

Lemma remove_whitespace_clean s :
  Js.any Js.is_whitespace (Js.remove_whitespace s) = false.
Proof.
  induction s as [|c s IH]; [reflexivity|]. cbn [Js.remove_whitespace].
  destruct (Js.is_whitespace c) eqn:Hc; [exact IH|].
  cbn [Js.any]. now rewrite Hc, IH.
Qed.

(** Joining the pieces of a split with the separator gives the string
    back. *)
Lemma concat_split sep s :
  String.concat (String sep "") (Str.split sep s) = s.
Proof.
  induction s as [|c s IH]; [reflexivity|]. cbn [Str.split].
  destruct (Ascii.eqb_spec c sep) as [-> | Hne].
  - pose proof (split_not_nil sep s) as Hnil.
    destruct (Str.split sep s) as [|first others]; [contradiction|].
    cbn [String.concat append] in *. now rewrite IH.
  - destruct (Str.split sep s) as [|first others].
    + cbn in IH. subst s. reflexivity.
    + rewrite <- IH. destruct others; reflexivity.
Qed.

(** X17. The namespace list is empty exactly when the answer is empty. For
    any other answer the namespaces, joined by commas, are the answer
    without its white space, and no namespace holds a comma or white
    space (an answer of white space alone gives the one namespace [""]). *)
Theorem chosen_namespaces_shape answer :
  (IssueToken.chosen_namespaces answer = [] <-> answer = "") /\
  (answer <> "" ->
   String.concat "," (IssueToken.chosen_namespaces answer) =
   Js.remove_whitespace answer) /\
  (forall ns, In ns (IssueToken.chosen_namespaces answer) ->
     Js.contains "," ns = false /\ Js.any Js.is_whitespace ns = false).
Proof.
  unfold IssueToken.chosen_namespaces.
  destruct (String.eqb_spec answer "") as [-> | Hne]; cbn [negb].
  - split; [split; congruence|]. split; [congruence|]. intros ns [].
  - split; [|split].
    + split; [|contradiction]. intros H. now apply split_not_nil in H.
    + intros _. apply concat_split.
    + intros ns Hin. split.
      * exact (split_pieces_lack_separator "," _ ns Hin).
      * apply not_true_is_false. intros H.
        apply (split_pieces_any _ _ _ _ Hin) in H.
        now rewrite remove_whitespace_clean in H.
Qed.

(** X18. Leaving the namespace prompt empty issues a token with the empty
    [aud]: whatever the other answers, such a token is refused every
    request but a GET whose URL ends in [/v2/]. *)
Theorem empty_namespace_answer_token readOnly expirationMinutes accountID
    issued_in p request w res :
  run (createToken_payload (IssueToken.chosen_capabilities readOnly)
         (IssueToken.chosen_namespaces "") expirationMinutes accountID)
    issued_in = Ok p ->
  method_switch request p <> Return (granted p) ->
  run (verifyPayload request p) w = Ok res ->
  aud p = Some [] /\ res = denied.
Proof.
  intros Hp Hnot Hrun. unfold run in Hp.
  rewrite createToken_payload_run in Hp. unfold fst in Hp.
  match type of Hp with
  | Ok ?built = Ok _ => assert (Heq : built = p) by congruence
  end.
  assert (Haud : aud p = Some []) by (now subst p).
  split; [exact Haud|].
  destruct (verifyPayload_exits request p w) as [[e He] | [Hd | Hg]];
    [congruence | congruence |].
  exfalso. apply verifyPayload_grants_iff in Hg.
  destruct Hg as [_ [Hby | (_ & u & _ & Hrej)]]; [contradiction|].
  now rewrite (empty_aud_rejects_all p (namespace_of u) Haud) in Hrej.
Qed.

Lemma empty_namespace_answer_token_witness :
  let p := mkPayload "v0" None [pull; push] 1700000000 None (Some []) in
  aud p = Some [] /\ denied = denied.
Proof.
  apply (empty_namespace_answer_token "" None None Stub.issue_world
           (mkPayload "v0" None [pull; push] 1700000000 None (Some []))
           Stub.push_request Stub.verify_world denied).
  - reflexivity.
  - discriminate.
  - reflexivity.
Defined.
